(** * Forter chargeback webhook mapper: transform-and-validate pipeline

    A shallow embedding of [src/mapper.js] (the JSONata mapping [mapStripe]
    and the Express handler of [POST /webhook]) and of [src/validator.js]
    ([validateChargeback], the Ajv-compiled chargeback schema), together with
    the properties of the pipeline.

    The two libraries the code calls are modelled on the fragment the code
    uses: JSONata's evaluator (path navigation with sequence flattening,
    [$uppercase], [/], literals, object constructors) in [Module Jsonata],
    and the validators Ajv generates for flat object schemas in
    [Module Ajv].  Numbers are IEEE 754 binary64 values, as in JavaScript,
    through the Standard Library's executable [SpecFloat]. *)

From Stdlib Require Import ZArith Bool List String Ascii Lia.
From Stdlib Require Import Floats.SpecFloat.
Import ListNotations.

Set Warnings "-register-all".

Local Open Scope string_scope.
Local Open Scope list_scope.

(* ================================================================== *)
(** ** JavaScript numbers *)

Module Number.

(** A JavaScript number is a binary64 float: 53 bits of precision,
    exponents below 1024. *)
Definition prec : Z := 53.
Definition emax : Z := 1024.

Definition number := spec_float.

(** The number an integer literal denotes. *)
Definition of_Z (z : Z) : number := binary_normalize prec emax z 0 false.

(** JavaScript's [/]. *)
Definition div (x y : number) : number := SFdiv prec emax x y.

(** [isNaN] and [isFinite] on a value that is already a number. *)
Definition isNaN (x : number) : bool :=
  match x with S754_nan => true | _ => false end.

Definition isFinite (x : number) : bool :=
  match x with
  | S754_zero _ | S754_finite _ _ _ => true
  | S754_infinity _ | S754_nan => false
  end.

(** The double written [25.99] in the test and in the README: the
    binary64 value nearest to 2599/100. *)
Definition lit_25_99 : number := S754_finite false 7315534644709949 (-48).

End Number.

(* ================================================================== *)
(** ** JSON documents *)

Module Json.

(** What [JSON.parse] produces and [JSON.stringify] consumes.  An object
    keeps its properties in insertion order. *)
Inductive json : Type :=
| JNull
| JBool (b : bool)
| JNumber (n : Number.number)
| JString (s : string)
| JArray (items : list json)
| JObject (fields : list (string * json)).

(** Own-property read [o[k]] on the property list of an object;
    [None] is JavaScript's [undefined]. *)
Fixpoint get (fields : list (string * json)) (k : string) : option json :=
  match fields with
  | [] => None
  | (k', v) :: rest => if String.eqb k' k then Some v else get rest k
  end.

(** Property write [o[k] = v] on an existing property. *)
Fixpoint set (fields : list (string * json)) (k : string) (v : json)
  : list (string * json) :=
  match fields with
  | [] => []
  | (k', v') :: rest =>
      if String.eqb k' k then (k', v) :: rest else (k', v') :: set rest k v
  end.

(** A property whose value is [undefined] is dropped by [JSON.stringify]
    (and never created by JSONata's object constructor). *)
Definition field (k : string) (v : option json) : list (string * json) :=
  match v with
  | Some j => [(k, j)]
  | None => []
  end.

End Json.

Import Json.

(* ================================================================== *)
(** ** Thrown values *)

Module Js.

(** What a [catch (err)] of the handler can receive: a [TypeError] of the
    engine, or the error object JSONata throws (its [code] and the
    [message] JSONata fills in before rethrowing). *)
Inductive thrown : Type :=
| TypeError (msg : string)
| JsonataError (code : string) (msg : string).

Definition message (e : thrown) : string :=
  match e with
  | TypeError m => m
  | JsonataError _ m => m
  end.

Definition result (A : Type) : Type := (thrown + A)%type.

(** Member read [o.k] for a property name [k] that no prototype defines
    (here: [payload]).  Reading a property of [undefined] or [null]
    throws; primitives and arrays have no such property. *)
Definition member (o : option json) (k : string) : result (option json) :=
  match o with
  | None =>
      inl (TypeError
             ("Cannot read properties of undefined (reading '" ++ k ++ "')"))
  | Some JNull =>
      inl (TypeError
             ("Cannot read properties of null (reading '" ++ k ++ "')"))
  | Some (JObject fields) => inr (Json.get fields k)
  | Some _ => inr None
  end.

End Js.

(* ================================================================== *)
(** ** JSONata *)

Module Jsonata.

Import Js.

(** The fragment of JSONata that provider mappings are written in
    (compare the PayPal example of the README): paths of field names,
    string and number literals, [$uppercase(e)], [e1 / e2], and an
    object constructor whose keys are string literals. *)
Inductive expr : Type :=
| EPath (steps : list string)
| EString (s : string)
| ENumber (n : Number.number)
| EUppercase (arg : expr)
| EDiv (lhs rhs : expr).

(** A mapping is an object constructor at the top of the file: string
    literal keys, one expression per key. *)
Definition mapping : Type := list (string * expr).

(** A defined result of evaluation: a JSON value, or a _sequence_, the
    flagged array JSONata builds while it maps a path over arrays.  An
    undefined result is [None]. *)
Inductive value : Type :=
| Val (j : json)
| Seq (items : list json).

(** [Array.isArray] with the elements. *)
Definition asArray (v : value) : option (list json) :=
  match v with
  | Val (JArray l) => Some l
  | Seq l => Some l
  | Val _ => None
  end.

(** The JSON value handed to the caller: a sequence is a plain array. *)
Definition toJson (v : value) : json :=
  match v with
  | Val j => j
  | Seq l => JArray l
  end.

(** Splice arrays, push everything else. *)
Definition spliced (v : value) : list json :=
  match asArray v with
  | Some l => l
  | None => [toJson v]
  end.

(** [fn.lookup(input, key)]: the property of an object; over an array,
    the sequence of the defined lookups of its items, arrays spliced. *)
Fixpoint lookup (input : json) (key : string) : option value :=
  match input with
  | JObject fields => option_map Val (Json.get fields key)
  | JArray items =>
      Some (Seq ((fix over (l : list json) : list json :=
                    match l with
                    | [] => []
                    | x :: rest =>
                        match lookup x key with
                        | Some v => spliced v ++ over rest
                        | None => over rest
                        end
                    end) items))
  | _ => None
  end.

(** The end of [evaluate]: an empty sequence is [undefined], a singleton
    sequence is its element. *)
Definition unwrap (r : option value) : option value :=
  match r with
  | Some (Seq []) => None
  | Some (Seq [x]) => Some (Val x)
  | _ => r
  end.

(** [evaluate] on a name step against one context item. *)
Definition evaluateName (key : string) (item : option json) : option value :=
  match item with
  | Some j => unwrap (lookup j key)
  | None => None
  end.

(** [evaluateStep]: evaluate the step on every item, keep the defined
    results; on the last step a single plain array is returned as it is,
    otherwise the results are flattened into a sequence. *)
Definition evaluateStep (key : string) (input : list (option json))
           (lastStep : bool) : value :=
  let result :=
    flat_map (fun item => match evaluateName key item with
                          | Some v => [v]
                          | None => []
                          end) input in
  match lastStep, result with
  | true, [Val (JArray a)] => Val (JArray a)
  | _, _ => Seq (flat_map spliced result)
  end.

Definition items (v : value) : list json :=
  match asArray v with
  | Some l => l
  | None => []
  end.

(** The loop of [evaluatePath] from step [key] on: stop on an empty
    result, else feed the result sequence to the next step. *)
Fixpoint evaluateSteps (key : string) (rest : list string)
         (input : list (option json)) : value :=
  match rest with
  | [] => evaluateStep key input true
  | key' :: rest' =>
      let resultSequence := evaluateStep key input false in
      match items resultSequence with
      | [] => resultSequence
      | l => evaluateSteps key' rest' (map Some l)
      end
  end.

(** [evaluatePath]: an array context is iterated over, anything else
    (also [undefined]) is a singleton input sequence. *)
Definition evaluatePath (steps : list string) (input : option json)
  : option value :=
  match steps with
  | [] => None
  | key :: rest =>
      let inputSequence :=
        match input with
        | Some (JArray l) => map Some l
        | _ => [input]
        end in
      unwrap (Some (evaluateSteps key rest inputSequence))
  end.

(** The double quote JSONata puts around a token in a message. *)
Definition dq : string := String "034"%char EmptyString.

Definition T0410 (fn : string) : thrown :=
  JsonataError "T0410"
    ("Argument 1 of function " ++ dq ++ fn ++ dq
       ++ " does not match function signature").

Definition T2001 (op : string) : thrown :=
  JsonataError "T2001"
    ("The left side of the " ++ dq ++ op ++ dq
       ++ " operator must evaluate to a number").

Definition T2002 (op : string) : thrown :=
  JsonataError "T2002"
    ("The right side of the " ++ dq ++ op ++ dq
       ++ " operator must evaluate to a number").

Definition D1001 : thrown :=
  JsonataError "D1001" "Number out of range: null".

Definition D1009 (key : string) : thrown :=
  JsonataError "D1009"
    ("Multiple key definitions evaluate to same key: " ++ dq ++ key ++ dq).

(** [String.prototype.toUpperCase], as far as it is modelled: the bytes
    [a] to [z] become [A] to [Z], every other byte stays.  On a string of
    ASCII characters this is the function of the engine; on other strings
    the engine applies the Unicode case mapping, which the model does not
    have, so statements that name the upper-cased value are made for ASCII
    strings only (see [Dispute.isAscii]). *)
Definition upper (c : ascii) : ascii :=
  let n := nat_of_ascii c in
  if (97 <=? n)%nat && (n <=? 122)%nat then ascii_of_nat (n - 32) else c.

Fixpoint toUpperCase (s : string) : string :=
  match s with
  | EmptyString => EmptyString
  | String c rest => String (upper c) (toUpperCase rest)
  end.

(** [$uppercase], signature [<s-:s>]: an undefined argument gives
    undefined, a string is upper-cased, anything else is rejected by the
    signature check. *)
Definition uppercase (arg : option value) : result (option value) :=
  match arg with
  | None => inr None
  | Some (Val (JString s)) => inr (Some (Val (JString (toUpperCase s))))
  | Some _ => inl (T0410 "uppercase")
  end.

(** [isNumeric]: a number that is not NaN; an infinite number throws. *)
Definition isNumeric (v : value) : result bool :=
  match v with
  | Val (JNumber n) =>
      if Number.isNaN n then inr false
      else if Number.isFinite n then inr true
      else inl D1001
  | _ => inr false
  end.

(** [evaluateNumericExpression] for [/]: both operands are checked
    (left first) before an undefined operand makes the result
    undefined. *)
Definition checkOperand (side : string -> thrown) (v : option value)
  : result unit :=
  match v with
  | None => inr tt
  | Some x =>
      match isNumeric x with
      | inl e => inl e
      | inr true => inr tt
      | inr false => inl (side "/")
      end
  end.

Definition divide (lhs rhs : option value) : result (option value) :=
  match checkOperand T2001 lhs with
  | inl e => inl e
  | inr _ =>
      match checkOperand T2002 rhs with
      | inl e => inl e
      | inr _ =>
          match lhs, rhs with
          | Some (Val (JNumber x)), Some (Val (JNumber y)) =>
              inr (Some (Val (JNumber (Number.div x y))))
          | _, _ => inr None
          end
      end
  end.

(** [evaluate] on an expression against a context value. *)
Fixpoint evaluate (e : expr) (input : option json) : result (option value) :=
  match e with
  | EPath steps => inr (evaluatePath steps input)
  | EString s => inr (Some (Val (JString s)))
  | ENumber n => inr (Some (Val (JNumber n)))
  | EUppercase arg =>
      match evaluate arg input with
      | inl err => inl err
      | inr v => uppercase v
      end
  | EDiv lhs rhs =>
      match evaluate lhs input with
      | inl err => inl err
      | inr l =>
          match evaluate rhs input with
          | inl err => inl err
          | inr r => divide l r
          end
      end
  end.

(** The first key defined twice, if any. *)
Fixpoint duplicate (keys : list string) : option string :=
  match keys with
  | [] => None
  | k :: rest =>
      if existsb (String.eqb k) rest then Some k else duplicate rest
  end.

(** The values of an object constructor, in key order: a key whose value
    is undefined is left out of the result.  When several values throw,
    the model reports the first in key order; which one the library
    reports depends on its version (JSONata 2 evaluates the values
    concurrently), and no statement below depends on it. *)
Fixpoint evaluateValues (pairs : mapping) (input : option json)
  : result (list (string * json)) :=
  match pairs with
  | [] => inr []
  | (key, e) :: rest =>
      match evaluate e input with
      | inl err => inl err
      | inr v =>
          match evaluateValues rest input with
          | inl err => inl err
          | inr fields => inr (Json.field key (option_map toJson v) ++ fields)
          end
      end
  end.

(** [expression.evaluate(input)] for a mapping: the payload, whether an
    object, an array or undefined, is the context of every value
    expression, and the result is always an object. *)
Definition evaluateMapping (m : mapping) (input : option json)
  : result (option json) :=
  match duplicate (map fst m) with
  | Some key => inl (D1009 key)
  | None =>
      match evaluateValues m input with
      | inl err => inl err
      | inr fields => inr (Some (JObject fields))
      end
  end.

End Jsonata.

(* ================================================================== *)
(** ** src/mapper.js: the Stripe mapping *)

Module Mapper.

Import Jsonata.

(** Modelled from the spec: [src/providers/stripe.jsonata], the mapping
    file [mapper.js] reads and compiles at load time, is not among the
    sources.  Its content is fixed by the normalized record of the spec
    (section 3), the end-to-end scenario (section 8: amount divided by
    100, currency upper-cased, provider the literal [stripe]) and the
    test [test/stripe.test.js]:
<<
    {
      "transaction_id": data.object.charge,
      "reason": data.object.reason,
      "currency": $uppercase(data.object.currency),
      "amount": data.object.amount / 100,
      "provider": "stripe"
    }
>> *)
Definition stripeExpression : mapping :=
  [ ("transaction_id", EPath ["data"; "object"; "charge"]);
    ("reason", EPath ["data"; "object"; "reason"]);
    ("currency", EUppercase (EPath ["data"; "object"; "currency"]));
    ("amount", EDiv (EPath ["data"; "object"; "amount"])
                    (ENumber (Number.of_Z 100)));
    ("provider", EString "stripe") ].

(** [export async function mapStripe(payload)]: a thrown error is the
    rejection of the returned promise, which [await] rethrows. *)
Definition mapStripe (payload : option json) : Js.result (option json) :=
  evaluateMapping stripeExpression payload.

End Mapper.

(* ================================================================== *)
(** ** Ajv *)

Module Ajv.

(** The JSON Schema [type] names. *)
Inductive JType : Type :=
| TNull | TBoolean | TNumber | TString | TArray | TObject.

Definition typeName (t : JType) : string :=
  match t with
  | TNull => "null"
  | TBoolean => "boolean"
  | TNumber => "number"
  | TString => "string"
  | TArray => "array"
  | TObject => "object"
  end.

(** The check Ajv generates for [type] (a number must be finite:
    [strictNumbers] is on by default). *)
Definition checkDataType (t : JType) (data : json) : bool :=
  match t, data with
  | TNull, JNull => true
  | TBoolean, JBool _ => true
  | TNumber, JNumber n => Number.isFinite n
  | TString, JString _ => true
  | TArray, JArray _ => true
  | TObject, JObject _ => true
  | _, _ => false
  end.

(** The options of [new Ajv(options)] that decide how many errors are
    reported and whether the validated data is written to.  With
    [coerceTypes] on, a value of the wrong type is replaced in its parent
    by its conversion, when Ajv's conversion table has one; the table
    travels with the option. *)
Record Options : Type := {
  allErrors : bool;
  coerceTypes : option (JType -> json -> option json)
}.

(** [new Ajv()]. *)
Definition defaultOptions : Options :=
  {| allErrors := false; coerceTypes := None |}.

(** A flat object schema:
    [{"type":"object","required":[...],"properties":{p:{"type":t},...}}]. *)
Record ObjectSchema : Type := {
  required : list string;
  properties : list (string * JType)
}.

(** An entry of [validate.errors]. *)
Record ErrorObject : Type := {
  instancePath : string;
  schemaPath : string;
  keyword : string;
  params : list (string * json);
  message : string
}.

Definition errorToJson (e : ErrorObject) : json :=
  JObject [ ("instancePath", JString (instancePath e));
            ("schemaPath", JString (schemaPath e));
            ("keyword", JString (keyword e));
            ("params", JObject (params e));
            ("message", JString (message e)) ].

Definition typeError (path schema : string) (t : JType) : ErrorObject :=
  {| instancePath := path;
     schemaPath := schema;
     keyword := "type";
     params := [("type", JString (typeName t))];
     message := "must be " ++ typeName t |}.

Definition requiredError (p : string) : ErrorObject :=
  {| instancePath := "";
     schemaPath := "#/required";
     keyword := "required";
     params := [("missingProperty", JString p)];
     message := "must have required property '" ++ p ++ "'" |}.

Definition propertyTypeError (p : string) (t : JType) : ErrorObject :=
  typeError ("/" ++ p) ("#/properties/" ++ p ++ "/type") t.

Definition isMissing (fields : list (string * json)) (p : string) : bool :=
  match Json.get fields p with
  | None => true
  | Some _ => false
  end.

(** [properties], one entry: an absent property is skipped; a present
    one is type-checked, after coercion when that is on. *)
Definition validateProperty (opts : Options) (fields : list (string * json))
           (entry : string * JType)
  : list (string * json) * list ErrorObject :=
  let (p, t) := entry in
  match Json.get fields p with
  | None => (fields, [])
  | Some v =>
      if checkDataType t v then (fields, [])
      else
        match coerceTypes opts with
        | Some coerceTo =>
            match coerceTo t v with
            | Some v' => (Json.set fields p v', [])
            | None => (fields, [propertyTypeError p t])
            end
        | None => (fields, [propertyTypeError p t])
        end
  end.

(** [properties], in schema order.  Without [allErrors] the generated
    code returns at the first error. *)
Fixpoint validateProperties (opts : Options)
         (props : list (string * JType)) (fields : list (string * json))
  : list (string * json) * list ErrorObject :=
  match props with
  | [] => (fields, [])
  | entry :: rest =>
      match validateProperty opts fields entry with
      | (fields1, []) => validateProperties opts rest fields1
      | (fields1, errs) =>
          if allErrors opts then
            let (fields2, errs') := validateProperties opts rest fields1 in
            (fields2, errs ++ errs')
          else (fields1, errs)
      end
  end.

(** The generated validator on the data and its verdict: the data after
    the call and the errors found ([[]] when valid).  The root must be an
    object; [required] is checked before [properties]; without
    [allErrors] only the first missing property is reported and
    [properties] is not reached. *)
Definition validate (opts : Options) (schema : ObjectSchema)
           (data : option json) : option json * list ErrorObject :=
  match data with
  | Some (JObject fields) =>
      let missing := filter (isMissing fields) (required schema) in
      if allErrors opts then
        let (fields', errs) :=
          validateProperties opts (properties schema) fields in
        (Some (JObject fields'), map requiredError missing ++ errs)
      else
        match missing with
        | p :: _ => (data, [requiredError p])
        | [] =>
            let (fields', errs) :=
              validateProperties opts (properties schema) fields in
            (Some (JObject fields'), errs)
        end
  | _ => (data, [typeError "" "#/type" TObject])
  end.

(** The function object [ajv.compile(schema)] returns: its mutable
    [errors] property ([null] after a successful call). *)
Record ValidateFunction : Type := {
  errors : option (list ErrorObject)
}.

(** A call [validate(data)]: the verdict, the data after the call, and
    the function object with its [errors] overwritten. *)
Definition call (opts : Options) (schema : ObjectSchema)
           (data : option json) (fn : ValidateFunction)
  : (bool * option json) * ValidateFunction :=
  match validate opts schema data with
  | (data', []) => ((true, data'), {| errors := None |})
  | (data', errs) => ((false, data'), {| errors := Some errs |})
  end.

End Ajv.

(* ================================================================== *)
(** ** src/validator.js *)

Module Validator.

Import Ajv.

(** Modelled from the spec: [schema/chargeback.schema.json], the schema
    [validator.js] parses at load time, is not among the sources.  The
    table of section 3 gives it: five required fields in the order
    transaction_id, reason, currency, amount, provider, all strings but
    the amount, which is a number. *)
Definition schema : ObjectSchema :=
  {| required := ["transaction_id"; "reason"; "currency"; "amount";
                  "provider"];
     properties := [ ("transaction_id", TString);
                     ("reason", TString);
                     ("currency", TString);
                     ("amount", TNumber);
                     ("provider", TString) ] |}.

(** [const ajv = new Ajv();] *)
Definition ajv : Options := defaultOptions.

(** [export const validateChargeback = ajv.compile(schema);] *)
Definition validateChargeback (data : option json) (fn : ValidateFunction)
  : (bool * option json) * ValidateFunction :=
  call ajv schema data fn.

End Validator.

(* ================================================================== *)
(** ** src/mapper.js: the Express handler *)

Module Server.

Import Ajv.

(** Code of the handler runs against the one module-level object it
    writes to, the function object [validateChargeback], and may throw. *)
Definition M (A : Type) : Type :=
  ValidateFunction -> Js.result A * ValidateFunction.

Definition ret {A : Type} (a : A) : M A := fun fn => (inr a, fn).

Definition bind {A B : Type} (c : M A) (k : A -> M B) : M B :=
  fun fn =>
    match c fn with
    | (inl err, fn') => (inl err, fn')
    | (inr a, fn') => k a fn'
    end.

(** A computation that touches no state. *)
Definition lift {A : Type} (r : Js.result A) : M A := fun fn => (r, fn).

(** A call of a function that does not throw. *)
Definition invoke {A : Type} (f : ValidateFunction -> A * ValidateFunction)
  : M A :=
  fun fn => let (a, fn') := f fn in (inr a, fn').

(** [try { c } catch (err) { h err }] with a handler that does not
    throw. *)
Definition tryCatch {A : Type} (c : M A)
           (h : Js.thrown -> ValidateFunction -> A * ValidateFunction)
  : ValidateFunction -> A * ValidateFunction :=
  fun fn =>
    match c fn with
    | (inr a, fn') => (a, fn')
    | (inl err, fn') => h err fn'
    end.

Notation "x <- c ;; k" := (bind c (fun x => k))
  (at level 61, c at next level, right associativity).
Notation "' pat <- c ;; k" :=
  (bind c (fun x => match x with pat => k end))
  (at level 61, pat pattern, c at next level, right associativity).

(** [req.body] as [express.json()] leaves it: the parsed document, or
    [undefined] when nothing was parsed. *)
Record Request : Type := { body : option json }.

(** What the handler sends: the status code and the JSON body. *)
Record Response : Type := { status : Z; content : json }.

(** [validateChargeback.errors]. *)
Definition readErrors : M json :=
  fun fn =>
    (inr match errors fn with
         | Some errs => JArray (map errorToJson errs)
         | None => JNull
         end, fn).

(** [app.post("/webhook", async (req, res) => { ... })].  The name
    [mappedTransactionData] is rebound after the validator call to the
    object as the call left it: the validator receives the object
    itself, not a copy. *)
Definition webhook (req : Request)
  : ValidateFunction -> Response * ValidateFunction :=
  tryCatch
    (payload <- lift (Js.member (body req) "payload") ;;
     mappedTransactionData <- lift (Mapper.mapStripe payload) ;;
     '(isValid, mappedTransactionData) <-
        invoke (Validator.validateChargeback mappedTransactionData) ;;
     if negb isValid then
       errs <- readErrors ;;
       ret {| status := 400; content := JObject [("errors", errs)] |}
     else
       ret {| status := 200;
              content := JObject (Json.field "result" mappedTransactionData) |})
    (fun err fn =>
       ({| status := 500;
           content := JObject [("error", JString (Js.message err))] |}, fn)).

(** The three outcomes of the specification, read off a response. *)
Inductive PipelineOutcome : Type :=
| Succeeded (record : json)
| Rejected (violations : list json)
| Failed (message : string).

Definition outcome (r : Response) : option PipelineOutcome :=
  match status r, content r with
  | 200%Z, JObject [("result", record)] => Some (Succeeded record)
  | 400%Z, JObject [("errors", JArray violations)] =>
      Some (Rejected violations)
  | 500%Z, JObject [("error", JString msg)] => Some (Failed msg)
  | _, _ => None
  end.

(** The request the transport builds for [process(providerKey,
    rawPayload)]: the payload under [payload], the provider key beside
    it. *)
Definition request (providerKey : string) (rawPayload : json) : Request :=
  {| body := Some (JObject [ ("provider", JString providerKey);
                             ("payload", rawPayload) ]) |}.

(** [process(providerKey, rawPayload)] on a server whose validator
    function object is [fn]. *)
Definition process (providerKey : string) (rawPayload : json)
           (fn : ValidateFunction)
  : option PipelineOutcome * ValidateFunction :=
  let (response, fn') := webhook (request providerKey rawPayload) fn in
  (outcome response, fn').

(** The function object at load time. *)
Definition fresh : ValidateFunction := {| errors := None |}.

End Server.

(* ================================================================== *)
(** ** The specification's notions *)

Module Spec.

Import Ajv.

(** The NormalizedRecord of section 3: field, logical type; all five are
    required. *)
Definition normalizedRecord : list (string * JType) :=
  [ ("transaction_id", TString);
    ("reason", TString);
    ("currency", TString);
    ("amount", TNumber);
    ("provider", TString) ].

Definition hasField (fields : list (string * json))
           (entry : string * JType) : bool :=
  match Json.get fields (fst entry) with
  | Some v => checkDataType (snd entry) v
  | None => false
  end.

(** A document satisfies the fixed schema when it is an object in which
    every field of the table is present with its declared type. *)
Definition isNormalizedRecord (document : json) : bool :=
  match document with
  | JObject fields => forallb (hasField fields) normalizedRecord
  | _ => false
  end.

(** A type mismatch of one declared property. *)
Definition typeMismatch (fields : list (string * json))
           (entry : string * JType) : list ErrorObject :=
  match Json.get fields (fst entry) with
  | Some v =>
      if checkDataType (snd entry) v then []
      else [propertyTypeError (fst entry) (snd entry)]
  | None => []
  end.

(** The exhaustive violation list of section 4.3 for an object
    document: one entry per missing required field in declaration
    order, then one entry per type mismatch in declaration order. *)
Definition violations (schema : ObjectSchema)
           (fields : list (string * json)) : list ErrorObject :=
  map requiredError (filter (isMissing fields) (required schema))
    ++ flat_map (typeMismatch fields) (properties schema).

(** A Violation of section 6 carries its path under [instancePath] and
    its description under [message]. *)
Definition isViolation (v : json) : bool :=
  match v with
  | JObject fields =>
      match Json.get fields "instancePath", Json.get fields "message" with
      | Some (JString _), Some (JString _) => true
      | _, _ => false
      end
  | _ => false
  end.

(** The source path the Stripe mapping reads for a dispute field. *)
Definition source (name : string) : list string :=
  ["data"; "object"; name].

(** Source field and the output field it feeds. *)
Definition sources : list (string * string) :=
  [ ("charge", "transaction_id");
    ("reason", "reason");
    ("currency", "currency");
    ("amount", "amount") ].

(** A source path is missing in a payload when navigating it yields the
    absent value. *)
Definition missing (name : string) (payload : json) : bool :=
  match Jsonata.evaluatePath (source name) (Some payload) with
  | None => true
  | Some _ => false
  end.

(** The two source values the mapping operates on are, when present, of
    the type their operator takes: the currency a string, the amount a
    finite number. *)
Definition operandsTyped (payload : json) : bool :=
  match Jsonata.evaluatePath (source "currency") (Some payload) with
  | None | Some (Jsonata.Val (JString _)) => true
  | Some _ => false
  end
  &&
  match Jsonata.evaluatePath (source "amount") (Some payload) with
  | None => true
  | Some (Jsonata.Val (JNumber n)) => Number.isFinite n
  | Some _ => false
  end.

End Spec.

(* ================================================================== *)
(** ** Documents of the scenarios *)

Module Fixtures.

Definition num (z : Z) : json := JNumber (Number.of_Z z).

(** The Stripe dispute event of section 8. *)
Definition stripeDispute : json :=
  JObject
    [ ("id", JString "evt_123");
      ("type", JString "charge.dispute.created");
      ("data",
       JObject
         [ ("object",
            JObject [ ("amount", num 2599);
                      ("currency", JString "usd");
                      ("reason", JString "fraudulent");
                      ("charge", JString "ch_98765") ]) ]) ].

(** The record the test expects for it. *)
Definition forterRecord : json :=
  JObject [ ("transaction_id", JString "ch_98765");
            ("reason", JString "fraudulent");
            ("currency", JString "USD");
            ("amount", JNumber Number.lit_25_99);
            ("provider", JString "stripe") ].

Definition dispute (object : list (string * json)) : json :=
  JObject [ ("data", JObject [ ("object", JObject object) ]) ].

(** [{"data":{"object":{"amount":1000}}}] *)
Definition amountOnly : json := dispute [ ("amount", num 1000) ].

(** What the Stripe mapping makes of [amountOnly]. *)
Definition amountOnlyCandidate : list (string * json) :=
  [ ("amount", num 10); ("provider", JString "stripe") ].

(** A dispute whose currency is the ISO 4217 number instead of the
    code. *)
Definition numericCurrency : json :=
  dispute [ ("amount", num 2599);
            ("currency", num 840);
            ("reason", JString "fraudulent");
            ("charge", JString "ch_98765") ].

(** The same with neither charge nor reason:
    [{"data":{"object":{"amount":1000,"currency":840}}}] *)
Definition numericCurrencyOnly : json :=
  dispute [ ("amount", num 1000); ("currency", num 840) ].

(** A payload whose [data] is not an object. *)
Definition scalarData : json := JObject [ ("data", JString "dp_12345") ].

(** A dispute whose amount is a string. *)
Definition stringAmount : json :=
  dispute [ ("amount", JString "2599");
            ("currency", JString "usd");
            ("reason", JString "fraudulent");
            ("charge", JString "ch_98765") ].

(** A dispute whose charge is a number. *)
Definition numericCharge : json :=
  dispute [ ("amount", num 2599);
            ("currency", JString "usd");
            ("reason", JString "fraudulent");
            ("charge", num 98765) ].

(** What the Stripe mapping makes of [numericCharge]. *)
Definition numericChargeCandidate : list (string * json) :=
  [ ("transaction_id", num 98765);
    ("reason", JString "fraudulent");
    ("currency", JString "USD");
    ("amount", JNumber Number.lit_25_99);
    ("provider", JString "stripe") ].

(** A conversion table entry, to exercise [coerceTypes]: a string where
    a number is expected becomes 0. *)
Definition zeroForStrings (t : Ajv.JType) (v : json) : option json :=
  match t, v with
  | Ajv.TNumber, JString _ => Some (num 0)
  | _, _ => None
  end.

End Fixtures.

(* ================================================================== *)
(** ** Disputes and the records made of them *)

Module Dispute.

Import Jsonata.

(** The payload of [test/stripe.test.js]: the dispute of section 8 with
    the dispute's own [id] beside the four fields the mapping reads. *)
Definition testPayload : json :=
  JObject
    [ ("id", JString "evt_123");
      ("type", JString "charge.dispute.created");
      ("data",
       JObject
         [ ("object",
            JObject [ ("id", JString "dp_12345");
                      ("amount", Fixtures.num 2599);
                      ("currency", JString "usd");
                      ("reason", JString "fraudulent");
                      ("charge", JString "ch_98765") ]) ]) ].

(** The source path [data.object.name] of a payload holds [v]. *)
Definition reads (payload : option json) (name : string) (v : json) : Prop :=
  evaluatePath (Spec.source name) payload = Some (Val v).

(** The object the modelled mapping builds from the four source values,
    its currency upper-cased by [Jsonata.toUpperCase]. *)
Definition record (charge reason currency : string)
           (amount : Number.number) : json :=
  JObject [ ("transaction_id", JString charge);
            ("reason", JString reason);
            ("currency", JString (toUpperCase currency));
            ("amount", JNumber (Number.div amount (Number.of_Z 100)));
            ("provider", JString "stripe") ].

(** The five-field record with its currency given as it is written. *)
Definition normalized (charge reason currency : string)
           (amount : Number.number) : json :=
  JObject [ ("transaction_id", JString charge);
            ("reason", JString reason);
            ("currency", JString currency);
            ("amount", JNumber (Number.div amount (Number.of_Z 100)));
            ("provider", JString "stripe") ].

(** A string of ASCII characters: every byte is below 128.  On these
    strings [Jsonata.toUpperCase] is the engine's [toUpperCase]. *)
Fixpoint isAscii (s : string) : bool :=
  match s with
  | EmptyString => true
  | String c rest => (nat_of_ascii c <? 128)%nat && isAscii rest
  end.

(** An ASCII lower-case letter. *)
Definition isLower (c : ascii) : bool :=
  let n := nat_of_ascii c in (97 <=? n)%nat && (n <=? 122)%nat.

Fixpoint noLower (s : string) : bool :=
  match s with
  | EmptyString => true
  | String c rest => negb (isLower c) && noLower rest
  end.

(** The violations a response of the endpoint can carry. *)
Definition reportable : list Ajv.ErrorObject :=
  [ Ajv.requiredError "transaction_id";
    Ajv.requiredError "reason";
    Ajv.requiredError "currency";
    Ajv.requiredError "amount";
    Ajv.propertyTypeError "transaction_id" Ajv.TString;
    Ajv.propertyTypeError "reason" Ajv.TString;
    Ajv.propertyTypeError "amount" Ajv.TNumber ].

End Dispute.

(* ================================================================== *)
(** ** Properties of the validator *)

Import Ajv.

Lemma lit_25_99_nearest :
  Number.lit_25_99 = S754_finite false 7315534644709949 (-48)
  /\ (2 ^ 52 <= 7315534644709949 < 2 ^ 53)%Z
  /\ (2 * Z.abs (100 * 7315534644709949 - 2599 * 2 ^ 48) <= 100)%Z.
Proof.
  split; [reflexivity|]. split; [split; reflexivity || (vm_compute; discriminate)|].
  vm_compute. discriminate.
Qed.

(** Without [coerceTypes] the property checks write nothing. *)
Lemma validateProperties_frame (opts : Options) props fields :
  coerceTypes opts = None ->
  fst (validateProperties opts props fields) = fields.
Proof.
  intros Hc. revert fields.
  induction props as [|[p t] rest IH]; intros fields; simpl; [reflexivity|].
  rewrite Hc.
  destruct (Json.get fields p) as [v|]; [|apply IH].
  destruct (checkDataType t v); [apply IH|].
  destruct (allErrors opts); [|reflexivity].
  specialize (IH fields).
  destruct (validateProperties opts rest fields); exact IH.
Qed.

(** Without [coerceTypes] a validator call returns its argument. *)
Lemma validate_frame (opts : Options) schema data :
  coerceTypes opts = None ->
  fst (validate opts schema data) = data.
Proof.
  intros Hc. unfold validate.
  destruct data as [[| | | | |fields]|]; try reflexivity.
  pose proof (validateProperties_frame opts (properties schema) fields Hc) as Hf.
  destruct (validateProperties opts (properties schema) fields) as [fields' errs].
  simpl in Hf. subst fields'.
  destruct (allErrors opts); [reflexivity|].
  destruct (filter (isMissing fields) (required schema)); reflexivity.
Qed.

(** Under [new Ajv()] the property checks stop at the first mismatch of
    the exhaustive list. *)
Lemma validateProperties_first props fields :
  snd (validateProperties defaultOptions props fields)
  = firstn 1 (flat_map (Spec.typeMismatch fields) props).
Proof.
  induction props as [|[p t] rest IH]; simpl; [reflexivity|].
  unfold Spec.typeMismatch at 1; simpl.
  destruct (Json.get fields p) as [v|]; [|exact IH].
  destruct (checkDataType t v); [exact IH|reflexivity].
Qed.

(** Under [new Ajv()] the error list of an object document is the first
    entry, if any, of the exhaustive list. *)
Lemma validate_first schema fields :
  snd (validate defaultOptions schema (Some (JObject fields)))
  = firstn 1 (Spec.violations schema fields).
Proof.
  unfold validate, Spec.violations; simpl.
  destruct (filter (isMissing fields) (required schema)) as [|p ps];
    [|reflexivity].
  pose proof (validateProperties_first (properties schema) fields) as H.
  destruct (validateProperties defaultOptions (properties schema) fields).
  exact H.
Qed.

(** With [allErrors] the validator reports the exhaustive list. *)
Lemma validate_allErrors schema fields :
  snd (validate {| allErrors := true; coerceTypes := None |} schema
                (Some (JObject fields)))
  = Spec.violations schema fields.
Proof.
  unfold validate, Spec.violations; simpl.
  assert (H : snd (validateProperties
                     {| allErrors := true; coerceTypes := None |}
                     (properties schema) fields)
              = flat_map (Spec.typeMismatch fields) (properties schema)).
  { induction (properties schema) as [|[p t] rest IH]; simpl; [reflexivity|].
    unfold Spec.typeMismatch at 1; simpl.
    destruct (Json.get fields p) as [v|]; [|exact IH].
    destruct (checkDataType t v); [exact IH|].
    destruct (validateProperties _ rest fields); simpl in *. now rewrite IH. }
  destruct (validateProperties _ (properties schema) fields); simpl in *.
  now rewrite H.
Qed.

(** With [coerceTypes] on, the validator does write to the document. *)
Example coerceTypes_writes :
  validate {| allErrors := false;
              coerceTypes := Some Fixtures.zeroForStrings |}
           {| required := []; properties := [("amount", TNumber)] |}
           (Some (JObject [("amount", JString "12")]))
  = (Some (JObject [("amount", Fixtures.num 0)]), []).
Proof. reflexivity. Qed.

(* ================================================================== *)
(** ** Properties of the mapping *)

Import Jsonata.

Arguments evaluatePath : simpl never.

(** The Stripe mapping, field by field. *)
Lemma mapStripe_eq (payload : option json) :
  Mapper.mapStripe payload =
  match uppercase (evaluatePath (Spec.source "currency") payload) with
  | inl err => inl err
  | inr currency =>
      match divide (evaluatePath (Spec.source "amount") payload)
                   (Some (Val (JNumber (Number.of_Z 100)))) with
      | inl err => inl err
      | inr amount =>
          inr (Some (JObject
            (Json.field "transaction_id"
               (option_map toJson (evaluatePath (Spec.source "charge") payload))
             ++ Json.field "reason"
               (option_map toJson (evaluatePath (Spec.source "reason") payload))
             ++ Json.field "currency" (option_map toJson currency)
             ++ Json.field "amount" (option_map toJson amount)
             ++ [("provider", JString "stripe")])))
      end
  end.
Proof.
  unfold Mapper.mapStripe, evaluateMapping.
  change (duplicate (map fst Mapper.stripeExpression)) with (@None string).
  unfold Mapper.stripeExpression, Spec.source.
  cbn [evaluateValues evaluate].
  destruct (uppercase _) as [e|c]; [reflexivity|].
  destruct (divide _ _) as [e|a]; reflexivity.
Qed.

(** The mapping always builds an object, and the object always says
    [stripe]. *)
Lemma mapStripe_object (payload : option json) (d : option json) :
  Mapper.mapStripe payload = inr d ->
  exists fields,
    d = Some (JObject fields)
    /\ Json.get fields "provider" = Some (JString "stripe").
Proof.
  rewrite mapStripe_eq.
  destruct (uppercase _) as [e|c]; [discriminate|].
  destruct (divide _ _) as [e|a]; [discriminate|].
  generalize (evaluatePath (Spec.source "charge") payload),
             (evaluatePath (Spec.source "reason") payload).
  intros charge reason H; injection H as <-.
  eexists; split; [reflexivity|].
  destruct charge, reason, c, a; reflexivity.
Qed.

(** [$uppercase] faults only on its signature. *)
Lemma uppercase_faults (arg : option value) (err : Js.thrown) :
  uppercase arg = inl err -> err = T0410 "uppercase".
Proof.
  destruct arg as [[j|l]|]; simpl; try discriminate.
  - destruct j; try discriminate; intros H; injection H as <-; reflexivity.
  - intros H; injection H as <-; reflexivity.
Qed.

(** Division by a finite literal faults only on its left operand. *)
Lemma divide_faults (lhs : option value) (n : Number.number)
      (err : Js.thrown) :
  Number.isFinite n = true ->
  divide lhs (Some (Val (JNumber n))) = inl err ->
  err = T2001 "/" \/ err = D1001.
Proof.
  intros Hn. unfold divide.
  destruct (checkOperand T2001 lhs) as [e|u] eqn:Hl.
  - intros H; injection H as <-. unfold checkOperand in Hl.
    destruct lhs as [x|]; [|discriminate].
    destruct (isNumeric x) as [e'|[|]] eqn:Hx; try discriminate.
    + injection Hl as <-. right. unfold isNumeric in Hx.
      destruct x as [[]|]; try discriminate.
      destruct (Number.isNaN n0); [discriminate|].
      destruct (Number.isFinite n0); [discriminate|].
      injection Hx as <-; reflexivity.
    + injection Hl as <-. left; reflexivity.
  - unfold checkOperand, isNumeric.
    destruct n; try discriminate Hn; simpl;
      destruct lhs as [[[]|]|]; discriminate.
Qed.

(** The only faults of the mapping are JSONata's type and range errors. *)
Lemma mapStripe_faults (payload : option json) (err : Js.thrown) :
  Mapper.mapStripe payload = inl err ->
  In err [T0410 "uppercase"; T2001 "/"; D1001].
Proof.
  rewrite mapStripe_eq.
  destruct (uppercase _) as [e|c] eqn:Hu.
  - intros H; injection H as <-.
    apply uppercase_faults in Hu; subst; simpl; auto.
  - destruct (divide _ _) as [e|a] eqn:Hd; [|discriminate].
    intros H; injection H as <-.
    apply divide_faults in Hd; [|reflexivity].
    destruct Hd; subst; simpl; auto.
Qed.

(* ================================================================== *)
(** ** Properties of the handler *)

Import Server.

(** The handler, exit by exit. *)
Lemma webhook_eq (req : Request) (fn : ValidateFunction) :
  webhook req fn =
  match Js.member (body req) "payload" with
  | inl err =>
      ({| status := 500;
          content := JObject [("error", JString (Js.message err))] |}, fn)
  | inr payload =>
      match Mapper.mapStripe payload with
      | inl err =>
          ({| status := 500;
              content := JObject [("error", JString (Js.message err))] |}, fn)
      | inr candidate =>
          match validate defaultOptions Validator.schema candidate with
          | (data, []) =>
              ({| status := 200;
                  content := JObject (Json.field "result" data) |},
               {| errors := None |})
          | (data, errs) =>
              ({| status := 400;
                  content :=
                    JObject [("errors", JArray (map errorToJson errs))] |},
               {| errors := Some errs |})
          end
      end
  end.
Proof.
  unfold webhook, tryCatch, bind, lift, invoke, readErrors, ret,
    Validator.validateChargeback, Validator.ajv, call.
  destruct (Js.member (body req) "payload") as [e|payload]; [reflexivity|].
  destruct (Mapper.mapStripe payload) as [e|candidate]; [reflexivity|].
  destruct (validate defaultOptions Validator.schema candidate) as [data [|e es]];
    reflexivity.
Qed.

(** The body of [process(providerKey, rawPayload)] carries the payload,
    whatever the key. *)
Lemma request_payload (providerKey : string) (rawPayload : json) :
  Js.member (body (request providerKey rawPayload)) "payload"
  = inr (Some rawPayload).
Proof. reflexivity. Qed.

(** A document without violations has every declared property that is
    also required, with its type. *)
Lemma no_violations_conforms schema fields :
  Spec.violations schema fields = [] ->
  (forall entry, In entry (properties schema) ->
                 In (fst entry) (required schema)) ->
  forallb (Spec.hasField fields) (properties schema) = true.
Proof.
  unfold Spec.violations. intros H Hreq.
  apply app_eq_nil in H as [Hm Ht].
  apply map_eq_nil in Hm.
  apply forallb_forall. intros entry Hin.
  unfold Spec.hasField.
  destruct (Json.get fields (fst entry)) as [v|] eqn:Hget.
  - destruct (checkDataType (snd entry) v) eqn:Hty; [reflexivity|].
    assert (Hbad : In (propertyTypeError (fst entry) (snd entry))
                      (flat_map (Spec.typeMismatch fields) (properties schema))).
    { apply in_flat_map. exists entry. split; [exact Hin|].
      unfold Spec.typeMismatch. rewrite Hget, Hty. left; reflexivity. }
    rewrite Ht in Hbad. destruct Hbad.
  - assert (Hbad : In (fst entry)
                      (filter (isMissing fields) (required schema))).
    { apply filter_In. split; [apply Hreq, Hin|].
      unfold isMissing. now rewrite Hget. }
    rewrite Hm in Hbad. destruct Hbad.
Qed.

(** A candidate on which the chargeback schema finds nothing is a
    NormalizedRecord. *)
Lemma valid_candidate_conforms fields :
  Spec.violations Validator.schema fields = [] ->
  Spec.isNormalizedRecord (JObject fields) = true.
Proof.
  intros Hv.
  apply (no_violations_conforms Validator.schema fields Hv).
  simpl. intros entry Hin.
  repeat (destruct Hin as [<-|Hin]; [simpl; tauto|]). destruct Hin.
Qed.

(** A missing required property makes the validator report exactly one
    missing property. *)
Lemma validate_missing schema fields p :
  In p (required schema) ->
  Json.get fields p = None ->
  exists r,
    In r (required schema)
    /\ Json.get fields r = None
    /\ validate defaultOptions schema (Some (JObject fields))
       = (Some (JObject fields), [requiredError r]).
Proof.
  intros Hin Hget.
  assert (Hf : In p (filter (isMissing fields) (required schema))).
  { apply filter_In. split; [exact Hin|]. unfold isMissing. now rewrite Hget. }
  unfold validate; simpl.
  destruct (filter (isMissing fields) (required schema)) as [|r rest] eqn:E;
    [destruct Hf|].
  assert (Hr : In r (filter (isMissing fields) (required schema)))
    by (rewrite E; left; reflexivity).
  apply filter_In in Hr as [Hr1 Hr2].
  exists r. split; [exact Hr1|]. split; [|reflexivity].
  unfold isMissing in Hr2. destruct (Json.get fields r); [discriminate|reflexivity].
Qed.

(** A response read as [Succeeded] comes from the last exit of the
    handler. *)
Lemma succeeded_inv (req : Request) (fn : ValidateFunction) (record : json) :
  outcome (fst (webhook req fn)) = Some (Succeeded record) ->
  exists payload fields,
    Js.member (body req) "payload" = inr payload
    /\ Mapper.mapStripe payload = inr (Some (JObject fields))
    /\ record = JObject fields
    /\ Json.get fields "provider" = Some (JString "stripe")
    /\ Spec.violations Validator.schema fields = [].
Proof.
  rewrite webhook_eq.
  destruct (Js.member (body req) "payload") as [e|payload]; [discriminate|].
  destruct (Mapper.mapStripe payload) as [e|candidate] eqn:Hmap; [discriminate|].
  destruct (mapStripe_object _ _ Hmap) as (fields & -> & Hprov).
  pose proof (validate_frame defaultOptions Validator.schema
                (Some (JObject fields)) eq_refl) as Hframe.
  pose proof (validate_first Validator.schema fields) as Hfirst.
  destruct (validate defaultOptions Validator.schema (Some (JObject fields)))
    as [data [|e es]]; simpl in Hframe, Hfirst; subst data; [|discriminate].
  simpl. intros H; injection H as <-.
  exists payload, fields. repeat split; try assumption.
  destruct (Spec.violations Validator.schema fields); [reflexivity|discriminate].
Qed.

(** A response read as [Rejected] comes from the [400] exit. *)
Lemma rejected_inv (req : Request) (fn : ValidateFunction) (vs : list json) :
  outcome (fst (webhook req fn)) = Some (Rejected vs) ->
  exists payload fields errs,
    Js.member (body req) "payload" = inr payload
    /\ Mapper.mapStripe payload = inr (Some (JObject fields))
    /\ snd (validate defaultOptions Validator.schema (Some (JObject fields)))
       = errs
    /\ errs <> []
    /\ vs = map errorToJson errs.
Proof.
  rewrite webhook_eq.
  destruct (Js.member (body req) "payload") as [e|payload]; [discriminate|].
  destruct (Mapper.mapStripe payload) as [e|candidate] eqn:Hmap; [discriminate|].
  destruct (mapStripe_object _ _ Hmap) as (fields & -> & Hprov).
  pose proof (validate_frame defaultOptions Validator.schema
                (Some (JObject fields)) eq_refl) as Hframe.
  destruct (validate defaultOptions Validator.schema (Some (JObject fields)))
    as [data [|e es]] eqn:Hval; simpl in Hframe; subst data;
    [simpl; discriminate|].
  intros H. exists payload, fields, (e :: es). rewrite Hval.
  simpl in H. injection H as <-.
  repeat split; try assumption; discriminate.
Qed.

(* ================================================================== *)
(** ** The claims *)

(** C1.  The Stripe dispute of section 8, processed with provider
    [stripe], succeeds with exactly the record of the test: the amount is
    2599 divided by 100, which is the double written 25.99, and the
    currency is [usd] upper-cased. *)
Theorem stripe_dispute_succeeds (fn : ValidateFunction) :
  fst (process "stripe" Fixtures.stripeDispute fn)
  = Some (Succeeded Fixtures.forterRecord)
  /\ Number.div (Number.of_Z 2599) (Number.of_Z 100) = Number.lit_25_99
  /\ toUpperCase "usd" = "USD".
Proof. repeat split. Qed.

(** C2, as the specification states it, fails on the payload
    [{"data":{"object":{"amount":1000}}}]: three required fields are
    missing from the candidate, and the response reports one of them. *)
Lemma amountOnly_reports_one_violation :
  Mapper.mapStripe (Some Fixtures.amountOnly)
  = inr (Some (JObject Fixtures.amountOnlyCandidate))
  /\ Spec.violations Validator.schema Fixtures.amountOnlyCandidate
     = [ requiredError "transaction_id"; requiredError "reason";
         requiredError "currency" ]
  /\ fst (process "stripe" Fixtures.amountOnly fresh)
     = Some (Rejected [errorToJson (requiredError "transaction_id")])
  /\ fst (process "stripe" Fixtures.amountOnly fresh)
     <> Some (Rejected
                (map errorToJson
                     (Spec.violations Validator.schema
                                      Fixtures.amountOnlyCandidate))).
Proof.
  split; [reflexivity|]. split; [reflexivity|]. split; [reflexivity|].
  vm_compute. discriminate.
Qed.

(** C2, amended.  A candidate the Stripe mapping built that violates the
    schema is rejected, and the rejection reports exactly one violation:
    the first entry of the exhaustive list of the candidate, in the order
    required fields, then type mismatches, each in schema-declaration
    order.  Conversely every rejection is of this kind. *)
Theorem rejected_reports_first_violation
        (req : Request) (fn : ValidateFunction) :
  (forall payload fields first rest,
      Js.member (body req) "payload" = inr payload ->
      Mapper.mapStripe payload = inr (Some (JObject fields)) ->
      Spec.violations Validator.schema fields = first :: rest ->
      outcome (fst (webhook req fn)) = Some (Rejected [errorToJson first]))
  /\ (forall vs,
        outcome (fst (webhook req fn)) = Some (Rejected vs) ->
        exists payload fields first,
          Js.member (body req) "payload" = inr payload
          /\ Mapper.mapStripe payload = inr (Some (JObject fields))
          /\ firstn 1 (Spec.violations Validator.schema fields) = [first]
          /\ vs = [errorToJson first]).
Proof.
  split.
  - intros payload fields first rest Hp Hm Hv.
    rewrite webhook_eq, Hp, Hm.
    pose proof (validate_first Validator.schema fields) as Hfirst.
    rewrite Hv in Hfirst.
    destruct (validate defaultOptions Validator.schema (Some (JObject fields)))
      as [data errs].
    simpl in Hfirst. subst errs. reflexivity.
  - intros vs H.
    destruct (rejected_inv _ _ _ H)
      as (payload & fields & errs & Hp & Hm & He & Hne & ->).
    rewrite validate_first in He.
    exists payload, fields.
    destruct (Spec.violations Validator.schema fields) as [|first rest];
      simpl in He; subst errs; [contradiction|].
    exists first. repeat split; assumption.
Qed.

Lemma rejected_reports_first_violation_witness :
  outcome (fst (webhook (request "stripe" Fixtures.amountOnly) fresh))
  = Some (Rejected [errorToJson (requiredError "transaction_id")])
  /\ outcome (fst (webhook (request "stripe" Fixtures.numericCharge) fresh))
     = Some (Rejected
               [errorToJson (propertyTypeError "transaction_id" TString)])
  /\ exists payload fields first,
       Js.member (body (request "stripe" Fixtures.amountOnly)) "payload"
       = inr payload
       /\ Mapper.mapStripe payload = inr (Some (JObject fields))
       /\ firstn 1 (Spec.violations Validator.schema fields) = [first]
       /\ [errorToJson (requiredError "transaction_id")] = [errorToJson first].
Proof.
  split; [|split].
  - apply (proj1 (rejected_reports_first_violation
                    (request "stripe" Fixtures.amountOnly) fresh)
                 (Some Fixtures.amountOnly) Fixtures.amountOnlyCandidate
                 (requiredError "transaction_id")
                 [requiredError "reason"; requiredError "currency"]);
      reflexivity.
  - apply (proj1 (rejected_reports_first_violation
                    (request "stripe" Fixtures.numericCharge) fresh)
                 (Some Fixtures.numericCharge)
                 Fixtures.numericChargeCandidate
                 (propertyTypeError "transaction_id" TString) []);
      reflexivity.
  - apply (proj2 (rejected_reports_first_violation
                    (request "stripe" Fixtures.amountOnly) fresh)).
    reflexivity.
Defined.

(** C3.  Whenever the handler answers with a success, the record it
    returns satisfies the fixed schema: all five required fields are
    present with their declared types. *)
Theorem succeeded_record_satisfies_schema
        (req : Request) (fn : ValidateFunction) (record : json) :
  outcome (fst (webhook req fn)) = Some (Succeeded record) ->
  Spec.isNormalizedRecord record = true.
Proof.
  intros H.
  destruct (succeeded_inv _ _ _ H) as (payload & fields & _ & _ & -> & _ & Hv).
  exact (valid_candidate_conforms fields Hv).
Qed.

Lemma succeeded_record_satisfies_schema_witness :
  outcome (fst (webhook (request "stripe" Fixtures.stripeDispute) fresh))
  = Some (Succeeded Fixtures.forterRecord)
  /\ Spec.isNormalizedRecord Fixtures.forterRecord = true.
Proof.
  split; [reflexivity|].
  apply (succeeded_record_satisfies_schema
           (request "stripe" Fixtures.stripeDispute) fresh).
  reflexivity.
Defined.

(** C4, as the specification states it, fails on
    [process("nonexistent", {})]: the outcome is a rejection with the
    violation of the first missing field, not a failure. *)
Lemma nonexistent_provider_is_rejected :
  fst (process "nonexistent" (JObject []) fresh)
  = Some (Rejected [errorToJson (requiredError "transaction_id")])
  /\ forall msg,
       fst (process "nonexistent" (JObject []) fresh) <> Some (Failed msg).
Proof.
  split; [reflexivity|]. intros msg. vm_compute. discriminate.
Qed.

(** C4, amended.  The handler resolves no provider: whatever the key,
    [process] is the Stripe mapping followed by validation, a failure
    carries one of JSONata's evaluation errors, and
    [process("nonexistent", {})] is rejected for the missing
    transaction_id. *)
Theorem provider_key_is_ignored
        (providerKey : string) (rawPayload : json) (fn : ValidateFunction) :
  process providerKey rawPayload fn = process "stripe" rawPayload fn
  /\ (forall msg,
        fst (process providerKey rawPayload fn) = Some (Failed msg) ->
        In msg (map Js.message [T0410 "uppercase"; T2001 "/"; D1001]))
  /\ fst (process "nonexistent" (JObject []) fn)
     = Some (Rejected [errorToJson (requiredError "transaction_id")]).
Proof.
  split; [|split].
  - unfold process. rewrite !webhook_eq, !request_payload. reflexivity.
  - unfold process. rewrite webhook_eq, request_payload.
    destruct (Mapper.mapStripe (Some rawPayload)) as [e|candidate] eqn:Hmap.
    + intros msg H; simpl in H; injection H as <-.
      apply in_map, (mapStripe_faults _ _ Hmap).
    + intros msg H.
      destruct (validate defaultOptions Validator.schema candidate)
        as [data [|e es]]; simpl in H; [|discriminate].
      destruct data; discriminate.
  - reflexivity.
Qed.

Lemma provider_key_is_ignored_witness :
  fst (process "paypal" Fixtures.numericCurrency fresh)
  = Some (Failed (Js.message (T0410 "uppercase")))
  /\ In (Js.message (T0410 "uppercase"))
        (map Js.message [T0410 "uppercase"; T2001 "/"; D1001]).
Proof.
  split; [reflexivity|].
  apply (proj1 (proj2 (provider_key_is_ignored
                         "paypal" Fixtures.numericCurrency fresh))).
  reflexivity.
Defined.

(** Every entry of [validateChargeback.errors] serializes to a
    violation. *)
Lemma errors_are_violations (errs : list ErrorObject) :
  forallb Spec.isViolation (map errorToJson errs) = true.
Proof.
  induction errs as [|e es IH]; [reflexivity|]. simpl. exact IH.
Qed.

(** C5.  Every request, whatever its body, is answered in one of exactly
    three ways: 200 with a NormalizedRecord under [result], 400 with the
    violations under [errors], each carrying [instancePath] and [message],
    or 500 with the message of the caught fault under [error]; nothing
    thrown inside the handler gets past its [catch]. *)
Theorem webhook_answers (req : Request) (fn : ValidateFunction) :
  let response := fst (webhook req fn) in
  (status response = 200%Z
   /\ exists record,
        content response = JObject [("result", record)]
        /\ Spec.isNormalizedRecord record = true
        /\ outcome response = Some (Succeeded record))
  \/ (status response = 400%Z
      /\ exists violations,
           content response = JObject [("errors", JArray violations)]
           /\ forallb Spec.isViolation violations = true
           /\ outcome response = Some (Rejected violations))
  \/ (status response = 500%Z
      /\ exists msg,
           content response = JObject [("error", JString msg)]
           /\ outcome response = Some (Failed msg)).
Proof.
  rewrite webhook_eq.
  destruct (Js.member (body req) "payload") as [e|payload].
  { right; right. split; [reflexivity|]. eexists; split; reflexivity. }
  destruct (Mapper.mapStripe payload) as [e|candidate] eqn:Hmap.
  { right; right. split; [reflexivity|]. eexists; split; reflexivity. }
  destruct (mapStripe_object _ _ Hmap) as (fields & -> & _).
  pose proof (validate_frame defaultOptions Validator.schema
                (Some (JObject fields)) eq_refl) as Hframe.
  pose proof (validate_first Validator.schema fields) as Hfirst.
  destruct (validate defaultOptions Validator.schema (Some (JObject fields)))
    as [data [|e es]]; simpl in Hframe, Hfirst; subst data.
  - left. split; [reflexivity|]. eexists; split; [reflexivity|].
    split; [|reflexivity].
    apply valid_candidate_conforms.
    destruct (Spec.violations Validator.schema fields);
      [reflexivity|discriminate].
  - right; left. split; [reflexivity|].
    exists (map errorToJson (e :: es)).
    split; [reflexivity|]. split; [apply errors_are_violations|reflexivity].
Qed.

(** C6, as the specification states it, fails on
    [{"data":{"object":{"amount":1000,"currency":840}}}]: the charge and
    the reason are missing and the currency is there with the wrong type,
    a number; evaluation faults on [$uppercase], and the outcome is a
    failure, not a rejection. *)
Lemma numeric_currency_fails :
  Spec.missing "charge" Fixtures.numericCurrencyOnly = true
  /\ evaluatePath (Spec.source "currency") (Some Fixtures.numericCurrencyOnly)
     = Some (Val (Fixtures.num 840))
  /\ Mapper.mapStripe (Some Fixtures.numericCurrencyOnly)
     = inl (T0410 "uppercase")
  /\ fst (process "stripe" Fixtures.numericCurrencyOnly fresh)
     = Some (Failed (Js.message (T0410 "uppercase")))
  /\ forall violations,
       fst (process "stripe" Fixtures.numericCurrencyOnly fresh)
       <> Some (Rejected violations).
Proof.
  split; [reflexivity|]. split; [reflexivity|]. split; [reflexivity|].
  split; [reflexivity|].
  intros violations. vm_compute. discriminate.
Qed.

(** A source path that runs through a value that is not an object is
    missing. *)
Example scalar_data_is_missing :
  Spec.missing "charge" Fixtures.scalarData = true
  /\ fst (process "stripe" Fixtures.scalarData fresh)
     = Some (Rejected [errorToJson (requiredError "transaction_id")]).
Proof. split; reflexivity. Qed.

(** A value of the wrong type is copied, not omitted, where the mapping
    applies no operator to it. *)
Example numeric_charge_is_copied :
  fst (process "stripe" Fixtures.numericCharge fresh)
  = Some (Rejected
            [errorToJson (propertyTypeError "transaction_id" TString)]).
Proof. reflexivity. Qed.

(** A string amount faults on the division. *)
Example string_amount_fails :
  fst (process "stripe" Fixtures.stringAmount fresh)
  = Some (Failed (Js.message (T2001 "/"))).
Proof. reflexivity. Qed.

(** With typed operands the mapping does not fault, and an absent
    currency or amount stays absent. *)
Lemma mapStripe_typed (payload : json) :
  Spec.operandsTyped payload = true ->
  exists currency amount,
    Mapper.mapStripe (Some payload)
    = inr (Some (JObject
        (Json.field "transaction_id"
           (option_map toJson
              (evaluatePath (Spec.source "charge") (Some payload)))
         ++ Json.field "reason"
           (option_map toJson
              (evaluatePath (Spec.source "reason") (Some payload)))
         ++ Json.field "currency" currency
         ++ Json.field "amount" amount
         ++ [("provider", JString "stripe")])))
    /\ (evaluatePath (Spec.source "currency") (Some payload) = None ->
        currency = None)
    /\ (evaluatePath (Spec.source "amount") (Some payload) = None ->
        amount = None).
Proof.
  unfold Spec.operandsTyped. intros H.
  apply andb_true_iff in H as [Hc Ha].
  rewrite mapStripe_eq.
  destruct (uppercase _) as [e|currency] eqn:Hu.
  { exfalso.
    destruct (evaluatePath (Spec.source "currency") (Some payload))
      as [[[]|]|]; discriminate. }
  destruct (divide _ _) as [e|amount] eqn:Hd.
  { exfalso. unfold divide, checkOperand, isNumeric in Hd.
    destruct (evaluatePath (Spec.source "amount") (Some payload))
      as [[[]|]|]; try discriminate.
    destruct n; discriminate. }
  exists (option_map toJson currency), (option_map toJson amount).
  split; [reflexivity|].
  split; intros E; rewrite E in *.
  - injection Hu as <-; reflexivity.
  - injection Hd as <-; reflexivity.
Qed.

(** With an operand of the wrong type the mapping faults. *)
Lemma mapStripe_untyped (payload : json) :
  Spec.operandsTyped payload = false ->
  exists err, Mapper.mapStripe (Some payload) = inl err.
Proof.
  unfold Spec.operandsTyped. intros H.
  rewrite mapStripe_eq.
  destruct (evaluatePath (Spec.source "currency") (Some payload))
    as [[[]|]|]; simpl in *; try (eexists; reflexivity);
  destruct (evaluatePath (Spec.source "amount") (Some payload))
    as [[[]|]|]; simpl in *; try discriminate H; try (eexists; reflexivity);
  unfold divide, checkOperand, isNumeric;
  destruct n; try discriminate H; simpl; eexists; reflexivity.
Qed.

(** The outcome of [process] is read off the handler's response. *)
Lemma process_outcome (providerKey : string) (rawPayload : json)
      (fn : ValidateFunction) :
  fst (process providerKey rawPayload fn)
  = outcome (fst (webhook (request providerKey rawPayload) fn)).
Proof.
  unfold process. destruct (webhook _ fn); reflexivity.
Qed.

(** A field whose source path is missing evaluates, without fault, to the
    absent value. *)
Lemma missing_source_evaluates (payload : json) (src target : string)
      (e : expr) :
  In (src, target) Spec.sources ->
  Spec.missing src payload = true ->
  In (target, e) Mapper.stripeExpression ->
  evaluate e (Some payload) = inr None.
Proof.
  unfold Spec.missing. intros Hs Hm He.
  destruct (evaluatePath (Spec.source src) (Some payload)) eqn:Hp;
    [discriminate|]. clear Hm.
  simpl in Hs. unfold Mapper.stripeExpression in He. cbn [In] in He.
  unfold Spec.source in Hp.
  destruct Hs as [Hs|[Hs|[Hs|[Hs|[]]]]]; injection Hs as <- <-;
    destruct He as [He|[He|[He|[He|[He|[]]]]]]; try discriminate He;
    injection He as <-; cbn [evaluate]; rewrite Hp; reflexivity.
Qed.

(** C6, amended.  When a source path the mapping reads is missing, the
    field it feeds evaluates without fault to the absent value.  If the
    currency and the amount are, when present, a string and a finite
    number, the mapping completes, the field is omitted from the
    candidate, and the outcome is a rejection with a missing-required-field
    violation; otherwise evaluation faults and the outcome is a
    failure. *)
Theorem missing_source_is_rejected
        (providerKey : string) (payload : json) (fn : ValidateFunction)
        (src target : string) :
  In (src, target) Spec.sources ->
  Spec.missing src payload = true ->
  (forall e, In (target, e) Mapper.stripeExpression ->
             evaluate e (Some payload) = inr None)
  /\ if Spec.operandsTyped payload then
       exists fields first,
         Mapper.mapStripe (Some payload) = inr (Some (JObject fields))
         /\ Json.get fields target = None
         /\ In first (required Validator.schema)
         /\ Json.get fields first = None
         /\ fst (process providerKey payload fn)
            = Some (Rejected [errorToJson (requiredError first)])
     else
       exists msg,
         fst (process providerKey payload fn) = Some (Failed msg).
Proof.
  intros Hs Hm. split.
  { intros e He. exact (missing_source_evaluates _ _ _ _ Hs Hm He). }
  rewrite process_outcome, webhook_eq, request_payload.
  destruct (Spec.operandsTyped payload) eqn:Ht.
  - destruct (mapStripe_typed _ Ht) as (currency & amount & Hmap & Hc & Ha).
    rewrite Hmap. clear Hmap.
    unfold Spec.missing in Hm.
    set (charge := evaluatePath (Spec.source "charge") (Some payload)) in *.
    set (reason := evaluatePath (Spec.source "reason") (Some payload)) in *.
    set (fields := Json.field "transaction_id" (option_map toJson charge)
                   ++ Json.field "reason" (option_map toJson reason)
                   ++ Json.field "currency" currency
                   ++ Json.field "amount" amount
                   ++ [("provider", JString "stripe")]).
    assert (Hget : Json.get fields target = None
                   /\ In target (required Validator.schema)).
    { subst fields. simpl in Hs.
      destruct Hs as [Hs|[Hs|[Hs|[Hs|[]]]]]; injection Hs as <- <-;
        (split; [|simpl; tauto]).
      - fold charge in Hm. destruct charge; [discriminate|].
        destruct reason, currency, amount; reflexivity.
      - fold reason in Hm. destruct reason; [discriminate|].
        destruct charge, currency, amount; reflexivity.
      - destruct (evaluatePath (Spec.source "currency") (Some payload));
          [discriminate|]. rewrite (Hc eq_refl).
        destruct charge, reason, amount; reflexivity.
      - destruct (evaluatePath (Spec.source "amount") (Some payload));
          [discriminate|]. rewrite (Ha eq_refl).
        destruct charge, reason, currency; reflexivity. }
    destruct Hget as [Hget Hreq].
    destruct (validate_missing Validator.schema fields target Hreq Hget)
      as (first & Hin & Hnone & Hval).
    exists fields, first. rewrite Hval.
    repeat split; assumption.
  - destruct (mapStripe_untyped _ Ht) as (err & Hmap).
    rewrite Hmap. eexists. reflexivity.
Qed.

Lemma missing_source_is_rejected_witness :
  In ("charge", "transaction_id") Spec.sources
  /\ Spec.missing "charge" Fixtures.amountOnly = true
  /\ (forall e, In ("transaction_id", e) Mapper.stripeExpression ->
                evaluate e (Some Fixtures.amountOnly) = inr None)
  /\ exists fields first,
       Mapper.mapStripe (Some Fixtures.amountOnly)
       = inr (Some (JObject fields))
       /\ Json.get fields "transaction_id" = None
       /\ In first (required Validator.schema)
       /\ Json.get fields first = None
       /\ fst (process "stripe" Fixtures.amountOnly fresh)
          = Some (Rejected [errorToJson (requiredError first)]).
Proof.
  assert (Hs : In ("charge", "transaction_id") Spec.sources)
    by (simpl; tauto).
  assert (Hm : Spec.missing "charge" Fixtures.amountOnly = true)
    by reflexivity.
  split; [exact Hs|]. split; [exact Hm|].
  exact (missing_source_is_rejected
           "stripe" Fixtures.amountOnly fresh "charge" "transaction_id" Hs Hm).
Defined.

(** The response depends on the request alone, not on what earlier calls
    left in [validateChargeback.errors]. *)
Lemma webhook_response_stateless (req : Request) (fn fn' : ValidateFunction) :
  fst (webhook req fn) = fst (webhook req fn').
Proof.
  rewrite !webhook_eq.
  destruct (Js.member (body req) "payload"); [reflexivity|].
  destruct (Mapper.mapStripe o); [reflexivity|].
  destruct (validate defaultOptions Validator.schema o0) as [data [|e es]];
    reflexivity.
Qed.

(** C8.  Two calls of [process(p, x)] yield the same outcome: the outcome
    is the same from any state of the validator's [errors] property, and
    in particular from the state the first call leaves behind. *)
Theorem process_is_deterministic
        (p : string) (x : json) (fn fn' : ValidateFunction) :
  fst (process p x fn) = fst (process p x fn')
  /\ fst (process p x (snd (process p x fn))) = fst (process p x fn).
Proof.
  rewrite !process_outcome.
  split; f_equal; apply webhook_response_stateless.
Qed.

(** C9.  A call of [validateChargeback] leaves the document as it was:
    nothing is written to it, no field is converted to another type. *)
Theorem validateChargeback_leaves_document
        (document : option json) (fn : ValidateFunction) :
  snd (fst (Validator.validateChargeback document fn)) = document.
Proof.
  unfold Validator.validateChargeback, Validator.ajv, call.
  pose proof (validate_frame defaultOptions Validator.schema document eq_refl)
    as H.
  destruct (validate defaultOptions Validator.schema document)
    as [data [|e es]]; exact H.
Qed.

(** C10.  The handler reads nothing of a request but its payload and
    always applies the Stripe mapping: two requests with the same payload
    get the same response, and the record of a success is the Stripe
    mapping of the payload, with [provider] equal to [stripe]. *)
Theorem succeeded_record_is_stripe
        (req req' : Request) (fn : ValidateFunction) (record : json) :
  Js.member (body req') "payload" = Js.member (body req) "payload" ->
  outcome (fst (webhook req fn)) = Some (Succeeded record) ->
  webhook req' fn = webhook req fn
  /\ exists payload fields,
       Js.member (body req) "payload" = inr payload
       /\ Mapper.mapStripe payload = inr (Some record)
       /\ record = JObject fields
       /\ Json.get fields "provider" = Some (JString "stripe").
Proof.
  intros Hsame H. split.
  - rewrite !webhook_eq, Hsame. reflexivity.
  - destruct (succeeded_inv _ _ _ H)
      as (payload & fields & Hp & Hm & -> & Hprov & _).
    exists payload, fields. repeat split; assumption.
Qed.

Lemma succeeded_record_is_stripe_witness :
  Js.member (body (request "paypal" Fixtures.stripeDispute)) "payload"
  = Js.member (body (request "stripe" Fixtures.stripeDispute)) "payload"
  /\ outcome (fst (webhook (request "stripe" Fixtures.stripeDispute) fresh))
     = Some (Succeeded Fixtures.forterRecord)
  /\ webhook (request "paypal" Fixtures.stripeDispute) fresh
     = webhook (request "stripe" Fixtures.stripeDispute) fresh
  /\ exists payload fields,
       Js.member (body (request "stripe" Fixtures.stripeDispute)) "payload"
       = inr payload
       /\ Mapper.mapStripe payload = inr (Some Fixtures.forterRecord)
       /\ Fixtures.forterRecord = JObject fields
       /\ Json.get fields "provider" = Some (JString "stripe").
Proof.
  split; [reflexivity|]. split; [reflexivity|].
  apply (succeeded_record_is_stripe
           (request "stripe" Fixtures.stripeDispute)
           (request "paypal" Fixtures.stripeDispute) fresh);
    reflexivity.
Defined.

(* ================================================================== *)
(** ** Further properties of the mapping and the validator *)

(** Navigation through plain nested objects is property lookup. *)
Lemma evaluatePath_plain (event data object : list (string * json))
      (name : string) :
  Json.get event "data" = Some (JObject data) ->
  Json.get data "object" = Some (JObject object) ->
  evaluatePath (Spec.source name) (Some (JObject event))
  = option_map Val (Json.get object name).
Proof.
  intros Hd Ho. unfold evaluatePath, Spec.source.
  cbn [evaluateSteps evaluateStep evaluateName lookup flat_map app map].
  rewrite Hd.
  cbn [option_map unwrap flat_map app spliced asArray toJson items map
       evaluateSteps evaluateStep evaluateName lookup].
  rewrite Ho.
  cbn [option_map unwrap flat_map app spliced asArray toJson items map
       evaluateSteps evaluateStep evaluateName lookup].
  destruct (Json.get object name) as [[]|]; reflexivity.
Qed.

(** A defined result of [$uppercase] is the upper-cased string
    argument. *)
Lemma uppercase_some (arg : option value) (v : value) :
  uppercase arg = inr (Some v) ->
  exists s, arg = Some (Val (JString s)) /\ v = Val (JString (toUpperCase s)).
Proof.
  destruct arg as [[[]|]|]; simpl; try discriminate.
  intros H; injection H as <-. eauto.
Qed.

(** A defined result of a division by a finite literal is the quotient
    of a finite number. *)
Lemma divide_some (lhs : option value) (d : Number.number) (v : value) :
  Number.isFinite d = true ->
  divide lhs (Some (Val (JNumber d))) = inr (Some v) ->
  exists n,
    lhs = Some (Val (JNumber n))
    /\ Number.isFinite n = true
    /\ v = Val (JNumber (Number.div n d)).
Proof.
  intros Hd. unfold divide, checkOperand, isNumeric.
  destruct lhs as [[[]|]|]; try discriminate;
    try (destruct d; discriminate).
  destruct (Number.isNaN n) eqn:Hnan; [discriminate|].
  destruct (Number.isFinite n) eqn:Hfin; [|discriminate].
  destruct d; try discriminate Hd; simpl;
    intros H; injection H as <-; eauto.
Qed.

(** [$uppercase] and [/] on operands of their type. *)
Lemma uppercase_string (s : string) :
  uppercase (Some (Val (JString s)))
  = inr (Some (Val (JString (toUpperCase s)))).
Proof. reflexivity. Qed.

Lemma divide_finite (n d : Number.number) :
  Number.isFinite n = true ->
  Number.isFinite d = true ->
  divide (Some (Val (JNumber n))) (Some (Val (JNumber d)))
  = inr (Some (Val (JNumber (Number.div n d)))).
Proof.
  intros Hn Hd. unfold divide, checkOperand, isNumeric.
  destruct n; try discriminate Hn; destruct d; try discriminate Hd;
    reflexivity.
Qed.

(** The properties of a candidate, key by key. *)
Lemma candidate_get (a b c d : option json) :
  let fields := Json.field "transaction_id" a ++ Json.field "reason" b
                ++ Json.field "currency" c ++ Json.field "amount" d
                ++ [("provider", JString "stripe")] in
  Json.get fields "transaction_id" = a
  /\ Json.get fields "reason" = b
  /\ Json.get fields "currency" = c
  /\ Json.get fields "amount" = d
  /\ Json.get fields "provider" = Some (JString "stripe").
Proof.
  destruct a, b, c, d; repeat split.
Qed.

(** Upper-casing leaves no ASCII lower-case letter and is idempotent. *)
Lemma upper_not_lower (c : ascii) : Dispute.isLower (upper c) = false.
Proof. destruct c as [[] [] [] [] [] [] [] []]; reflexivity. Qed.

Lemma upper_upper (c : ascii) : upper (upper c) = upper c.
Proof. destruct c as [[] [] [] [] [] [] [] []]; reflexivity. Qed.

Lemma toUpperCase_noLower (s : string) :
  Dispute.noLower (toUpperCase s) = true.
Proof.
  induction s as [|c s IH]; [reflexivity|].
  simpl. now rewrite upper_not_lower, IH.
Qed.

Lemma toUpperCase_idempotent (s : string) :
  toUpperCase (toUpperCase s) = toUpperCase s.
Proof.
  induction s as [|c s IH]; [reflexivity|].
  simpl. now rewrite upper_upper, IH.
Qed.

(** Upper-casing keeps a string ASCII and keeps its length. *)
Lemma upper_ascii (c : ascii) :
  (nat_of_ascii (upper c) <? 128)%nat = (nat_of_ascii c <? 128)%nat.
Proof. destruct c as [[] [] [] [] [] [] [] []]; reflexivity. Qed.

Lemma toUpperCase_isAscii (s : string) :
  Dispute.isAscii (toUpperCase s) = Dispute.isAscii s.
Proof.
  induction s as [|c s IH]; [reflexivity|].
  simpl. now rewrite upper_ascii, IH.
Qed.

Lemma toUpperCase_length (s : string) :
  String.length (toUpperCase s) = String.length s.
Proof.
  induction s as [|c s IH]; [reflexivity|].
  simpl. now rewrite IH.
Qed.

(** A candidate the validator accepts was built from four source values
    of the declared types. *)
Lemma valid_candidate_shape (payload : option json)
      (fields : list (string * json)) :
  Mapper.mapStripe payload = inr (Some (JObject fields)) ->
  Spec.violations Validator.schema fields = [] ->
  exists charge reason currency amount,
    Dispute.reads payload "charge" (JString charge)
    /\ Dispute.reads payload "reason" (JString reason)
    /\ Dispute.reads payload "currency" (JString currency)
    /\ Dispute.reads payload "amount" (JNumber amount)
    /\ Number.isFinite amount = true
    /\ JObject fields = Dispute.record charge reason currency amount.
Proof.
  intros Hm Hv. apply valid_candidate_conforms in Hv.
  rewrite mapStripe_eq in Hm.
  destruct (uppercase _) as [e|cur] eqn:Hu; [discriminate|].
  destruct (divide _ _) as [e|amt] eqn:Hd; [discriminate|].
  injection Hm as <-.
  unfold Spec.isNormalizedRecord, Spec.normalizedRecord, Spec.hasField in Hv.
  cbn [forallb fst snd] in Hv.
  destruct (candidate_get
              (option_map toJson
                 (evaluatePath (Spec.source "charge") payload))
              (option_map toJson
                 (evaluatePath (Spec.source "reason") payload))
              (option_map toJson cur) (option_map toJson amt))
    as (G1 & G2 & G3 & G4 & G5).
  cbv zeta in G1, G2, G3, G4, G5.
  rewrite G1, G2, G3, G4, G5 in Hv. clear G1 G2 G3 G4 G5.
  apply andb_true_iff in Hv as [H1 Hv].
  apply andb_true_iff in Hv as [H2 Hv].
  apply andb_true_iff in Hv as [H3 Hv].
  apply andb_true_iff in Hv as [H4 _].
  unfold Dispute.reads.
  destruct (evaluatePath (Spec.source "charge") payload) as [[[]|]|];
    try discriminate H1.
  destruct (evaluatePath (Spec.source "reason") payload) as [[[]|]|];
    try discriminate H2.
  destruct cur as [cur|]; [|discriminate H3].
  destruct amt as [amt|]; [|discriminate H4].
  apply uppercase_some in Hu as (currency & Hu & ->).
  apply divide_some in Hd as (amount & Hd & Hfin & ->); [|reflexivity].
  rewrite Hu, Hd.
  exists s, s0, currency, amount. repeat split; assumption.
Qed.

(** X1.  The record of a success has exactly the five fields, in the
    order of the mapping, and nothing else: the charge and the reason as
    they are in the payload, the currency upper-cased (for a currency of
    ASCII characters: its letters [a] to [z] replaced by [A] to [Z]), the
    amount divided by 100, and the provider [stripe]. *)
Theorem succeeded_record_shape
        (req : Request) (fn : ValidateFunction) (record : json) :
  outcome (fst (webhook req fn)) = Some (Succeeded record) ->
  exists payload charge reason currency amount uppercased,
    Js.member (body req) "payload" = inr payload
    /\ Dispute.reads payload "charge" (JString charge)
    /\ Dispute.reads payload "reason" (JString reason)
    /\ Dispute.reads payload "currency" (JString currency)
    /\ Dispute.reads payload "amount" (JNumber amount)
    /\ Number.isFinite amount = true
    /\ record = Dispute.normalized charge reason uppercased amount
    /\ (Dispute.isAscii currency = true ->
        uppercased = toUpperCase currency).
Proof.
  intros H.
  destruct (succeeded_inv _ _ _ H)
    as (payload & fields & Hp & Hm & -> & _ & Hv).
  destruct (valid_candidate_shape _ _ Hm Hv)
    as (charge & reason & currency & amount & H1 & H2 & H3 & H4 & H5 & H6).
  exists payload, charge, reason, currency, amount, (toUpperCase currency).
  repeat split; assumption.
Qed.

Lemma succeeded_record_shape_witness :
  outcome (fst (webhook (request "stripe" Dispute.testPayload) fresh))
  = Some (Succeeded Fixtures.forterRecord)
  /\ exists payload charge reason currency amount uppercased,
       Js.member (body (request "stripe" Dispute.testPayload)) "payload"
       = inr payload
       /\ Dispute.reads payload "charge" (JString charge)
       /\ Dispute.reads payload "reason" (JString reason)
       /\ Dispute.reads payload "currency" (JString currency)
       /\ Dispute.reads payload "amount" (JNumber amount)
       /\ Number.isFinite amount = true
       /\ Fixtures.forterRecord
          = Dispute.normalized charge reason uppercased amount
       /\ (Dispute.isAscii currency = true ->
           uppercased = toUpperCase currency).
Proof.
  split; [reflexivity|].
  apply (succeeded_record_shape
           (request "stripe" Dispute.testPayload) fresh).
  reflexivity.
Defined.

(** The handler on a payload whose four sources are of the declared
    types. *)
Lemma webhook_succeeds (req : Request) (fn : ValidateFunction)
      (payload : option json) (charge reason currency : string)
      (amount : Number.number) :
  Js.member (body req) "payload" = inr payload ->
  Dispute.reads payload "charge" (JString charge) ->
  Dispute.reads payload "reason" (JString reason) ->
  Dispute.reads payload "currency" (JString currency) ->
  Dispute.reads payload "amount" (JNumber amount) ->
  Number.isFinite amount = true ->
  Number.isFinite (Number.div amount (Number.of_Z 100)) = true ->
  webhook req fn
  = ({| status := 200;
        content :=
          JObject [("result",
                    Dispute.record charge reason currency amount)] |},
     {| errors := None |}).
Proof.
  unfold Dispute.reads. intros Hp H1 H2 H3 H4 Hfin Hq.
  rewrite webhook_eq, Hp, mapStripe_eq, H1, H2, H3, H4.
  rewrite uppercase_string,
    (divide_finite amount (Number.of_Z 100) Hfin eq_refl).
  unfold Dispute.record.
  remember (Number.div amount (Number.of_Z 100)) as q.
  unfold validate, Validator.schema, defaultOptions; simpl.
  rewrite Hq. reflexivity.
Qed.

(** X2.  A Stripe event whose [data.object] holds a string charge, reason
    and currency and a finite amount with a finite hundredth succeeds,
    whatever else the event and the dispute hold, with the record made of
    these four values; for a currency of ASCII characters the currency of
    the record is the payload's with [a] to [z] replaced by [A] to [Z]. *)
Theorem plain_dispute_succeeds
        (providerKey : string) (event data object : list (string * json))
        (charge reason currency : string) (amount : Number.number)
        (fn : ValidateFunction) :
  Json.get event "data" = Some (JObject data) ->
  Json.get data "object" = Some (JObject object) ->
  Json.get object "charge" = Some (JString charge) ->
  Json.get object "reason" = Some (JString reason) ->
  Json.get object "currency" = Some (JString currency) ->
  Json.get object "amount" = Some (JNumber amount) ->
  Number.isFinite amount = true ->
  Number.isFinite (Number.div amount (Number.of_Z 100)) = true ->
  exists uppercased,
    process providerKey (JObject event) fn
    = (Some (Succeeded (Dispute.normalized charge reason uppercased amount)),
       {| errors := None |})
    /\ (Dispute.isAscii currency = true ->
        uppercased = toUpperCase currency).
Proof.
  intros Hd Ho H1 H2 H3 H4 Hfin Hq.
  exists (toUpperCase currency). split; [|reflexivity].
  unfold process.
  rewrite (webhook_succeeds _ fn (Some (JObject event))
             charge reason currency amount);
    try assumption; try reflexivity;
    unfold Dispute.reads; rewrite (evaluatePath_plain _ _ _ _ Hd Ho).
  - now rewrite H1.
  - now rewrite H2.
  - now rewrite H3.
  - now rewrite H4.
Qed.

Lemma plain_dispute_succeeds_witness :
  exists uppercased,
    process "stripe" Dispute.testPayload fresh
    = (Some (Succeeded
               (Dispute.normalized "ch_98765" "fraudulent" uppercased
                                   (Number.of_Z 2599))),
       {| errors := None |})
    /\ (Dispute.isAscii "usd" = true -> uppercased = toUpperCase "usd").
Proof.
  apply (plain_dispute_succeeds
           "stripe"
           [ ("id", JString "evt_123");
             ("type", JString "charge.dispute.created");
             ("data",
              JObject
                [ ("object",
                   JObject [ ("id", JString "dp_12345");
                             ("amount", Fixtures.num 2599);
                             ("currency", JString "usd");
                             ("reason", JString "fraudulent");
                             ("charge", JString "ch_98765") ]) ]) ]
           [ ("object",
              JObject [ ("id", JString "dp_12345");
                        ("amount", Fixtures.num 2599);
                        ("currency", JString "usd");
                        ("reason", JString "fraudulent");
                        ("charge", JString "ch_98765") ]) ]
           [ ("id", JString "dp_12345");
             ("amount", Fixtures.num 2599);
             ("currency", JString "usd");
             ("reason", JString "fraudulent");
             ("charge", JString "ch_98765") ]
           "ch_98765" "fraudulent" "usd" (Number.of_Z 2599) fresh);
    reflexivity.
Defined.

(** X3.  When the currency of the payload is a string of ASCII
    characters, the currency of the success record is that string with
    [a] to [z] replaced by [A] to [Z]: it is ASCII, of the same length,
    holds no lower-case letter, and upper-casing it again changes
    nothing. *)
Theorem succeeded_currency_is_upper
        (req : Request) (fn : ValidateFunction) (record : json) :
  outcome (fst (webhook req fn)) = Some (Succeeded record) ->
  exists payload currency fields uppercased,
    Js.member (body req) "payload" = inr payload
    /\ Dispute.reads payload "currency" (JString currency)
    /\ record = JObject fields
    /\ Json.get fields "currency" = Some (JString uppercased)
    /\ (Dispute.isAscii currency = true ->
        uppercased = toUpperCase currency
        /\ Dispute.isAscii uppercased = true
        /\ String.length uppercased = String.length currency
        /\ Dispute.noLower uppercased = true
        /\ toUpperCase uppercased = uppercased).
Proof.
  intros H.
  destruct (succeeded_inv _ _ _ H)
    as (payload & fields & Hp & Hm & -> & _ & Hv).
  destruct (valid_candidate_shape _ _ Hm Hv)
    as (charge & reason & currency & amount & _ & _ & Hc & _ & _ & Hrec).
  injection Hrec as ->.
  exists payload, currency. eexists; exists (toUpperCase currency).
  split; [exact Hp|]. split; [exact Hc|].
  split; [reflexivity|]. split; [reflexivity|].
  intros Hascii. split; [reflexivity|].
  split; [now rewrite toUpperCase_isAscii|].
  split; [apply toUpperCase_length|].
  split; [apply toUpperCase_noLower|apply toUpperCase_idempotent].
Qed.

Lemma succeeded_currency_is_upper_witness :
  outcome (fst (webhook (request "stripe" Dispute.testPayload) fresh))
  = Some (Succeeded Fixtures.forterRecord)
  /\ exists payload currency fields uppercased,
       Js.member (body (request "stripe" Dispute.testPayload)) "payload"
       = inr payload
       /\ Dispute.reads payload "currency" (JString currency)
       /\ Fixtures.forterRecord = JObject fields
       /\ Json.get fields "currency" = Some (JString uppercased)
       /\ (Dispute.isAscii currency = true ->
           uppercased = toUpperCase currency
           /\ Dispute.isAscii uppercased = true
           /\ String.length uppercased = String.length currency
           /\ Dispute.noLower uppercased = true
           /\ toUpperCase uppercased = uppercased).
Proof.
  split; [reflexivity|].
  apply (succeeded_currency_is_upper
           (request "stripe" Dispute.testPayload) fresh).
  reflexivity.
Defined.

(** X4.  [process] fails exactly on the payloads in which the currency is
    present and not a string, or the amount is present and not a finite
    number. *)
Theorem process_fails_iff_operand_mistyped
        (providerKey : string) (payload : json) (fn : ValidateFunction) :
  (exists msg, fst (process providerKey payload fn) = Some (Failed msg))
  <-> Spec.operandsTyped payload = false.
Proof.
  rewrite process_outcome, webhook_eq, request_payload.
  destruct (Spec.operandsTyped payload) eqn:Ht.
  - destruct (mapStripe_typed _ Ht) as (currency & amount & Hmap & _).
    rewrite Hmap. split; [|discriminate].
    intros [msg H]. exfalso.
    destruct (validate defaultOptions Validator.schema _) as [data [|e es]];
      simpl in H; [destruct data|]; discriminate.
  - destruct (mapStripe_untyped _ Ht) as (err & Hmap).
    rewrite Hmap. split; [reflexivity|]. intros _. eexists; reflexivity.
Qed.

Lemma process_fails_iff_operand_mistyped_witness :
  Spec.operandsTyped Fixtures.stringAmount = false
  /\ exists msg,
       fst (process "stripe" Fixtures.stringAmount fresh) = Some (Failed msg).
Proof.
  split; [reflexivity|].
  apply (proj2 (process_fails_iff_operand_mistyped
                  "stripe" Fixtures.stringAmount fresh)).
  reflexivity.
Defined.

(** X5.  A request whose body is undefined or null is answered 500: the
    read of [req.body.payload] throws, neither the mapping nor the
    validator runs, and [validateChargeback.errors] stays as it was. *)
Theorem missing_body_fails (req : Request) (fn : ValidateFunction) :
  body req = None \/ body req = Some JNull ->
  exists msg,
    webhook req fn
    = ({| status := 500; content := JObject [("error", JString msg)] |}, fn).
Proof.
  intros H. rewrite webhook_eq.
  destruct H as [-> | ->]; eexists; reflexivity.
Qed.

Lemma missing_body_fails_witness :
  exists msg,
    webhook {| body := None |} {| errors := Some [requiredError "reason"] |}
    = ({| status := 500; content := JObject [("error", JString msg)] |},
       {| errors := Some [requiredError "reason"] |}).
Proof.
  apply (missing_body_fails {| body := None |}).
  left; reflexivity.
Defined.

(** X6.  A request whose body has no [payload] property (an object
    without the key, an array, a scalar) is not a fault: the mapping runs
    on the absent value, and the request is rejected for the missing
    transaction_id. *)
Theorem missing_payload_is_rejected (req : Request) (fn : ValidateFunction) :
  Js.member (body req) "payload" = inr None ->
  webhook req fn
  = ({| status := 400;
        content :=
          JObject [("errors",
                    JArray [errorToJson (requiredError "transaction_id")])] |},
     {| errors := Some [requiredError "transaction_id"] |}).
Proof.
  intros H. rewrite webhook_eq, H. reflexivity.
Qed.

Lemma missing_payload_is_rejected_witness :
  webhook {| body := Some (JObject [("provider", JString "stripe")]) |} fresh
  = ({| status := 400;
        content :=
          JObject [("errors",
                    JArray [errorToJson (requiredError "transaction_id")])] |},
     {| errors := Some [requiredError "transaction_id"] |}).
Proof.
  apply (missing_payload_is_rejected
           {| body := Some (JObject [("provider", JString "stripe")]) |}).
  reflexivity.
Defined.

(** X7.  What a request leaves in [validateChargeback.errors]: null after
    a 200, the errors just sent after a 400, and after a 500 whatever an
    earlier request left there. *)
Theorem webhook_errors_after (req : Request) (fn : ValidateFunction) :
  let response := fst (webhook req fn) in
  let fn' := snd (webhook req fn) in
  (status response = 200%Z /\ errors fn' = None)
  \/ (status response = 400%Z
      /\ exists errs,
           errs <> []
           /\ errors fn' = Some errs
           /\ content response
              = JObject [("errors", JArray (map errorToJson errs))])
  \/ (status response = 500%Z /\ fn' = fn).
Proof.
  rewrite webhook_eq.
  destruct (Js.member (body req) "payload") as [e|payload];
    [right; right; split; reflexivity|].
  destruct (Mapper.mapStripe payload) as [e|candidate];
    [right; right; split; reflexivity|].
  destruct (validate defaultOptions Validator.schema candidate)
    as [data [|e es]].
  - left. split; reflexivity.
  - right; left. split; [reflexivity|].
    exists (e :: es). repeat split. discriminate.
Qed.

(** A NormalizedRecord has no violation. *)
Lemma conforms_no_violations (fields : list (string * json)) :
  Spec.isNormalizedRecord (JObject fields) = true ->
  Spec.violations Validator.schema fields = [].
Proof.
  unfold Spec.isNormalizedRecord, Spec.normalizedRecord, Spec.hasField.
  cbn [forallb fst snd]. intros H.
  apply andb_true_iff in H as [H1 H].
  apply andb_true_iff in H as [H2 H].
  apply andb_true_iff in H as [H3 H].
  apply andb_true_iff in H as [H4 H].
  apply andb_true_iff in H as [H5 _].
  unfold Spec.violations, Validator.schema, isMissing, Spec.typeMismatch.
  cbn [required properties filter flat_map map app fst snd].
  destruct (Json.get fields "transaction_id"); [|discriminate H1].
  destruct (Json.get fields "reason"); [|discriminate H2].
  destruct (Json.get fields "currency"); [|discriminate H3].
  destruct (Json.get fields "amount"); [|discriminate H4].
  destruct (Json.get fields "provider"); [|discriminate H5].
  rewrite H1, H2, H3, H4, H5. reflexivity.
Qed.

(** X8.  On an object, [validateChargeback] returns true exactly when the
    object has the five fields of the schema with their declared types;
    its [errors] is then null, and otherwise holds exactly one error,
    whatever it held before. *)
Theorem validateChargeback_verdict
        (fields : list (string * json)) (fn : ValidateFunction) :
  let result := Validator.validateChargeback (Some (JObject fields)) fn in
  fst (fst result) = Spec.isNormalizedRecord (JObject fields)
  /\ if fst (fst result)
     then errors (snd result) = None
     else exists e, errors (snd result) = Some [e].
Proof.
  unfold Validator.validateChargeback, Validator.ajv, call.
  pose proof (validate_first Validator.schema fields) as Hfirst.
  destruct (validate defaultOptions Validator.schema (Some (JObject fields)))
    as [data errs]. simpl in Hfirst.
  destruct (Spec.violations Validator.schema fields) as [|v rest] eqn:Hv;
    simpl in Hfirst; subst errs; cbn [fst snd errors].
  - split; [|reflexivity].
    symmetry. exact (valid_candidate_conforms fields Hv).
  - split; [|eexists; reflexivity].
    destruct (Spec.isNormalizedRecord (JObject fields)) eqn:Hn;
      [|reflexivity].
    apply conforms_no_violations in Hn. rewrite Hn in Hv. discriminate.
Qed.

(** X9.  The violations the endpoint can report: a rejection carries one
    violation, and it is a missing transaction_id, reason, currency or
    amount, or a type mismatch of transaction_id, reason or amount; the
    provider is never missing, and a currency of the wrong type is never
    reported as a violation. *)
Theorem rejected_violation_is_reportable
        (req : Request) (fn : ValidateFunction) (vs : list json) :
  outcome (fst (webhook req fn)) = Some (Rejected vs) ->
  exists first,
    vs = [errorToJson first] /\ In first Dispute.reportable.
Proof.
  intros H.
  destruct (rejected_inv _ _ _ H)
    as (payload & fields & errs & _ & Hm & He & Hne & ->).
  rewrite mapStripe_eq in Hm.
  destruct (uppercase _) as [e|cur] eqn:Hu; [discriminate|].
  destruct (divide _ _) as [e|amt] eqn:Hd; [discriminate|].
  injection Hm as <-.
  assert (Hcur : cur = None \/ exists s, cur = Some (Val (JString s))).
  { destruct cur as [v|]; [right|left; reflexivity].
    apply uppercase_some in Hu as (s & _ & ->). eauto. }
  assert (Hamt : amt = None \/ exists q, amt = Some (Val (JNumber q))).
  { destruct amt as [v|]; [right|left; reflexivity].
    apply divide_some in Hd as (n & _ & _ & ->); [eauto|reflexivity]. }
  clear Hu Hd. revert He.
  generalize (option_map toJson
                (evaluatePath (Spec.source "charge") payload)),
             (option_map toJson
                (evaluatePath (Spec.source "reason") payload)).
  intros a b He.
  destruct Hcur as [->|[s ->]], Hamt as [->|[q ->]];
    destruct a as [[]|], b as [[]|]; simpl in He;
    try (destruct (Number.isFinite q); simpl in He);
    subst errs; try contradiction;
    (eexists; split; [reflexivity|simpl; tauto]).
Qed.

Lemma rejected_violation_is_reportable_witness :
  outcome (fst (webhook (request "stripe" Fixtures.numericCharge) fresh))
  = Some (Rejected
            [errorToJson (propertyTypeError "transaction_id" TString)])
  /\ exists first,
       [errorToJson (propertyTypeError "transaction_id" TString)]
       = [errorToJson first]
       /\ In first Dispute.reportable.
Proof.
  split; [reflexivity|].
  apply (rejected_violation_is_reportable
           (request "stripe" Fixtures.numericCharge) fresh).
  reflexivity.
Defined.

(** X10.  The response depends on the payload through the four source
    values only: two payloads that agree on [data.object.charge],
    [.reason], [.currency] and [.amount] get the same response and leave
    the same state, whatever else they hold. *)
Theorem response_depends_on_sources
        (req req' : Request) (fn : ValidateFunction)
        (payload payload' : option json) :
  Js.member (body req) "payload" = inr payload ->
  Js.member (body req') "payload" = inr payload' ->
  (forall name target,
      In (name, target) Spec.sources ->
      evaluatePath (Spec.source name) payload
      = evaluatePath (Spec.source name) payload') ->
  webhook req fn = webhook req' fn.
Proof.
  intros Hp Hp' Hsame.
  rewrite !webhook_eq, Hp, Hp', !mapStripe_eq.
  rewrite (Hsame "charge" "transaction_id") by (simpl; tauto).
  rewrite (Hsame "reason" "reason") by (simpl; tauto).
  rewrite (Hsame "currency" "currency") by (simpl; tauto).
  rewrite (Hsame "amount" "amount") by (simpl; tauto).
  reflexivity.
Qed.

Lemma response_depends_on_sources_witness :
  webhook (request "stripe" Fixtures.stripeDispute) fresh
  = webhook (request "stripe" Dispute.testPayload) fresh.
Proof.
  apply (response_depends_on_sources
           (request "stripe" Fixtures.stripeDispute)
           (request "stripe" Dispute.testPayload) fresh
           (Some Fixtures.stripeDispute) (Some Dispute.testPayload));
    try reflexivity.
  intros name target H. simpl in H.
  destruct H as [H|[H|[H|[H|[]]]]]; injection H as <- <-; reflexivity.
Defined.
